(** * GitHub MCP server: request translation and error classification

    A shallow embedding of [src/github/index.ts]: the two exported
    operations [createPRReviewComment] and [updatePullRequest], the
    [CallToolRequestSchema] handler that dispatches a tool call to them,
    and the [ListToolsRequestSchema] handler that lists the tools.

    JavaScript values are modelled as a tree type with an explicit
    [JUndefined]; objects are association lists in property insertion
    order, which is the order [JSON.stringify] emits.  The network, the
    body reader [response.json()] and the zod schemas of [schemas.ts]
    are external to the file and are taken as fields of an environment
    record.  Effects are recorded in a trace, so that "no network
    activity" and "the validator is never reached" are statements about
    the trace. *)

From Stdlib Require Import String Ascii List ZArith Bool Lia DecimalString.
Import ListNotations.
Local Open Scope string_scope.
Local Open Scope Z_scope.

(** ** JavaScript values and [JSON.stringify] *)

Module JS.

#[local] Set Warnings "-register-all".

(** Numbers are the integer-valued ones (line numbers, pull request
    numbers, identifiers): [JNum n] stands for the double whose value is
    the integer [n]. *)
Inductive jsval : Type :=
| JUndefined
| JNull
| JBool (b : bool)
| JNum (n : Z)
| JStr (s : string)
| JArr (items : list jsval)
| JObj (props : list (string * jsval)).

Definition jsobj := list (string * jsval).

(** [Number::toString] on an integer: decimal digits, a leading minus
    sign for negatives.  This is what JavaScript prints for the safe
    integers, those of absolute value below 2^53; beyond them a double
    is printed with its shortest round-trip digits, and from 10^21 on in
    exponent form, which is not modelled. *)
Definition Number_toString (n : Z) : string :=
  NilZero.string_of_int (Z.to_int n).


(** Lower-case hexadecimal digit of a value below 16. *)
Definition hex_digit (n : N) : ascii :=
  if (n <? 10)%N then ascii_of_N (48 + n) else ascii_of_N (87 + n).

(** The escape [\u00XX] of a control character. *)
Definition unicode_escape (c : ascii) : string :=
  let n := N_of_ascii c in
  "\u00" ++ String (hex_digit (n / 16)) (String (hex_digit (n mod 16)) "").

(** One character of [QuoteJSONString]. *)
Definition quote_char (c : ascii) : string :=
  let n := N_of_ascii c in
  if (n =? 34)%N then "\" ++ String c ""
  else if (n =? 92)%N then "\\"
  else if (n =? 8)%N then "\b"
  else if (n =? 12)%N then "\f"
  else if (n =? 10)%N then "\n"
  else if (n =? 13)%N then "\r"
  else if (n =? 9)%N then "\t"
  else if (n <? 32)%N then unicode_escape c
  else String c "".

Fixpoint quote_chars (s : string) : string :=
  match s with
  | EmptyString => ""
  | String c rest => quote_char c ++ quote_chars rest
  end.

Definition dq : string := String (ascii_of_N 34) "".

Definition QuoteJSONString (s : string) : string :=
  dq ++ quote_chars s ++ dq.

(** [Array.prototype.join] on strings. *)
Definition join (sep : string) (parts : list string) : string :=
  String.concat sep parts.

Definition newline : string := String (ascii_of_N 10) "".

(** The text of an object or array from its serialized members
    ([SerializeJSONObject] and [SerializeJSONArray], last steps):
    [opn] and [cls] are the brackets, [stepback] the indentation of the
    enclosing level and [indent] that of the members. *)
Definition wrap_members (opn cls gap stepback indent : string)
    (partial : list string) : string :=
  match partial with
  | [] => opn ++ cls
  | _ =>
      if String.eqb gap "" then opn ++ join "," partial ++ cls
      else opn ++ newline ++ indent
               ++ join ("," ++ newline ++ indent) partial
               ++ newline ++ stepback ++ cls
  end.

(** One member of an object: the quoted key, a colon, a space when a gap
    is in use, and the serialized value. *)
Definition member_text (gap key strP : string) : string :=
  QuoteJSONString key ++ ":" ++ (if String.eqb gap "" then "" else " ") ++ strP.

(** [SerializeJSONProperty]: [None] is JavaScript's [undefined] result.
    A property whose value serializes to [undefined] is left out of an
    object; an array element that does is written [null]. *)
Fixpoint SerializeJSONProperty (gap indent : string) (v : jsval) : option string :=
  match v with
  | JUndefined => None
  | JNull => Some "null"
  | JBool true => Some "true"
  | JBool false => Some "false"
  | JNum n => Some (Number_toString n)
  | JStr s => Some (QuoteJSONString s)
  | JArr items =>
      let inner := indent ++ gap in
      let partial :=
        (fix elems (l : list jsval) : list string :=
           match l with
           | [] => []
           | x :: r =>
               match SerializeJSONProperty gap inner x with
               | Some s => s
               | None => "null"
               end :: elems r
           end) items in
      Some (wrap_members "[" "]" gap indent inner partial)
  | JObj props =>
      let inner := indent ++ gap in
      let partial :=
        (fix members (l : list (string * jsval)) : list string :=
           match l with
           | [] => []
           | (k, x) :: r =>
               match SerializeJSONProperty gap inner x with
               | Some s => member_text gap k s :: members r
               | None => members r
               end
           end) props in
      Some (wrap_members "{" "}" gap indent inner partial)
  end.

(** [JSON.stringify(v)]. *)
Definition JSON_stringify (v : jsval) : option string :=
  SerializeJSONProperty "" "" v.

(** [JSON.stringify(v, null, 2)]: the gap is two spaces. *)
Definition JSON_stringify_indent2 (v : jsval) : option string :=
  SerializeJSONProperty "  " "" v.

(** The members [JSON.stringify] writes for an object, as (key, text)
    pairs in order: the properties whose value is not [undefined]. *)
Fixpoint serialized_members (props : jsobj) : list (string * string) :=
  match props with
  | [] => []
  | (k, x) :: r =>
      match SerializeJSONProperty "" "" x with
      | Some s => (k, s) :: serialized_members r
      | None => serialized_members r
      end
  end.

(** The keys [JSON.stringify] writes for an object, in order. *)
Definition body_keys (props : jsobj) : list string :=
  map fst (serialized_members props).

(** The text written under a key, if the key is written. *)
Definition member (k : string) (members : list (string * string)) : option string :=
  option_map snd (find (fun m => String.eqb (fst m) k) members).

(** The text of an object whose members are given. *)
Definition object_text (members : list (string * string)) : string :=
  wrap_members "{" "}" "" "" ""
    (map (fun m => member_text "" (fst m) (snd m)) members).

End JS.
Import JS.

(** ** Data of the server *)

(** The union type ["LEFT" | "RIGHT"] of a diff side. *)
Inductive Side : Type := LEFT | RIGHT.

Definition Side_text (s : Side) : string :=
  match s with LEFT => "LEFT" | RIGHT => "RIGHT" end.

(** A step of a zod issue path: a property name or an array index. *)
Inductive PathSegment : Type :=
| Key (k : string)
| Index (i : Z).

Definition segment_text (seg : PathSegment) : string :=
  match seg with
  | Key k => k
  | Index i => Number_toString i
  end.

(** The two fields of a zod issue the handler reads. *)
Record ZodIssue : Type := mkIssue {
  path : list PathSegment;
  message : string }.

(** What can be thrown.  [Error] is [new Error(message)]; [ZodError] is
    the error of a failed [schema.parse]; [FetchError] is a rejection of
    [fetch] (no response was received); [BodyError] is a rejection of
    [response.json()]. *)
Inductive JsError : Type :=
| Error (msg : string)
| ZodError (errors : list ZodIssue)
| FetchError (msg : string)
| BodyError (msg : string).

(** The second argument of [fetch]. *)
Record RequestInit : Type := mkInit {
  method : string;
  headers : list (string * string);
  body : option string }.

(** A completed HTTP exchange as the code reads it. *)
Record Response : Type := mkResponse {
  status : Z;
  statusText : string;
  raw_body : string }.

(** [response.ok]: the status is in the range 200 to 299. *)
Definition ok (r : Response) : bool :=
  (200 <=? status r) && (status r <? 300).

(** The output of [UpdatePullRequestSchema.parse] as the handler
    destructures it: [owner], [repo], [pull_number], and the remaining
    properties, in order, as [options]. *)
Record UpdatePullRequestArgs : Type := mkUpdateArgs {
  upd_owner : string;
  upd_repo : string;
  upd_pull_number : Z;
  upd_options : jsobj }.

(** The output of [CreatePRReviewCommentSchema.parse]: the ten
    properties the handler destructures. *)
Record CreatePRReviewCommentArgs : Type := mkCommentArgs {
  arg_owner : string;
  arg_repo : string;
  arg_pull_number : Z;
  arg_body : string;
  arg_commit_id : string;
  arg_path : string;
  arg_line : Z;
  arg_side : option Side;
  arg_start_line : option Z;
  arg_start_side : option Side }.

(** [request.params] of a tool call: [arguments] is an object or is
    absent. *)
Record CallToolRequest : Type := mkCall {
  name : string;
  arguments : option jsobj }.

(** The schemas imported from [schemas.ts] that the code parses with. *)
Inductive SchemaName : Type :=
| SUpdatePullRequest
| SCreatePRReviewComment
| SGitHubPRReviewComment
| SGitHubPullRequest.

(** The effects of a run, in order: a call of [fetch], a call of
    [response.json()], a call of [schema.parse]. *)
Inductive Event : Type :=
| EvFetch (url : string) (init : RequestInit)
| EvJson (r : Response)
| EvParse (schema : SchemaName) (input : jsval).

(** What the file takes from outside: the token read from the process
    environment at start-up, the network, the body reader, and the four
    schemas (a parse returns the issues of a [ZodError] or the parsed
    value).  [fetch] gives what the network does with the request of the
    run at hand: the message of a rejection, or the response; two runs
    that meet different networks are two environments. *)
Record Env : Type := mkEnv {
  GITHUB_PERSONAL_ACCESS_TOKEN : string;
  fetch : string -> RequestInit -> string + Response;
  response_json : Response -> string + jsval;
  UpdatePullRequestSchema : jsobj -> list ZodIssue + UpdatePullRequestArgs;
  CreatePRReviewCommentSchema : jsobj -> list ZodIssue + CreatePRReviewCommentArgs;
  GitHubPRReviewCommentSchema : jsval -> list ZodIssue + jsval;
  GitHubPullRequestSchema : jsval -> list ZodIssue + jsval }.

(** ** The monad of a run: a trace of effects and a value or a thrown error *)

Definition M (A : Type) : Type := list Event * (JsError + A).

Definition ret {A} (a : A) : M A := ([], inr a).

Definition throw {A} (e : JsError) : M A := ([], inl e).

Definition bind {A B} (m : M A) (f : A -> M B) : M B :=
  match m with
  | (t, inl e) => (t, inl e)
  | (t, inr a) => let (t', r) := f a in ((t ++ t')%list, r)
  end.

(** [try { m } catch (error) { h error }]. *)
Definition try_catch {A} (m : M A) (h : JsError -> M A) : M A :=
  match m with
  | (t, inl e) => let (t', r) := h e in ((t ++ t')%list, r)
  | (t, inr a) => (t, inr a)
  end.

(** An external call: the event is recorded, then the call returns or
    throws. *)
Definition call {X A} (ev : Event) (wrap : X -> JsError) (r : X + A) : M A :=
  match r with
  | inl x => ([ev], inl (wrap x))
  | inr a => ([ev], inr a)
  end.

Declare Scope run_scope.
Delimit Scope run_scope with run.
Notation "x <- m ;; k" := (bind m (fun x => k))
  (at level 100, m at next level, right associativity) : run_scope.
Local Open Scope run_scope.

Definition trace {A} (m : M A) : list Event := fst m.
Definition outcome {A} (m : M A) : JsError + A := snd m.

(** ** The operations of [index.ts] *)

Section Operations.

Variable E : Env.

(** The header set both operations send. *)
Definition request_headers : list (string * string) :=
  [ ("Authorization", "token " ++ GITHUB_PERSONAL_ACCESS_TOKEN E);
    ("Accept", "application/vnd.github.v3+json");
    ("User-Agent", "github-mcp-server");
    ("Content-Type", "application/json") ].

(** [x || "RIGHT"] on an optional side: both side names are non-empty
    strings, hence truthy. *)
Definition side_or_RIGHT (side : option Side) : Side :=
  match side with
  | Some s => s
  | None => RIGHT
  end.

(** A property holding an optional value: [undefined] when absent. *)
Definition optional {A} (inj : A -> jsval) (x : option A) : jsval :=
  match x with
  | Some a => inj a
  | None => JUndefined
  end.

(** The URL of [createPRReviewComment] (line 99). *)
Definition createPRReviewComment_url (owner repo : string) (pullNumber : Z) : string :=
  "https://api.github.com/repos/" ++ owner ++ "/" ++ repo ++ "/pulls/"
    ++ Number_toString pullNumber ++ "/comments".

(** The object literal handed to [JSON.stringify] (lines 109 to 117). *)
Definition createPRReviewComment_payload (body commitId path : string) (line : Z)
    (side : option Side) (startLine : option Z) (startSide : option Side) : jsobj :=
  [ ("body", JStr body);
    ("commit_id", JStr commitId);
    ("path", JStr path);
    ("line", JNum line);
    ("side", JStr (Side_text (side_or_RIGHT side)));
    ("start_line", optional JNum startLine);
    ("start_side", optional (fun s => JStr (Side_text s)) startSide) ].

(** The options object of the [fetch] call (lines 101 to 118). *)
Definition createPRReviewComment_init (body commitId path : string) (line : Z)
    (side : option Side) (startLine : option Z) (startSide : option Side) : RequestInit :=
  {| method := "POST";
     headers := request_headers;
     body := JSON_stringify
               (JObj (createPRReviewComment_payload body commitId path line
                        side startLine startSide)) |}.

(** The steps after [fetch] has returned, the same in both operations:
    the [response.ok] test, then [schema.parse(await response.json())]. *)
Definition check_and_parse (schema : SchemaName)
    (parse : jsval -> list ZodIssue + jsval) (response : Response) : M jsval :=
  if negb (ok response) then
    throw (Error ("GitHub API error: " ++ statusText response))
  else
    data <- call (EvJson response) BodyError (response_json E response) ;;
    call (EvParse schema data) ZodError (parse data).

Definition createPRReviewComment (owner repo : string) (pullNumber : Z)
    (body commitId path : string) (line : Z)
    (side : option Side) (startLine : option Z) (startSide : option Side) : M jsval :=
  let url := createPRReviewComment_url owner repo pullNumber in
  let init := createPRReviewComment_init body commitId path line side startLine startSide in
  response <- call (EvFetch url init) FetchError (fetch E url init) ;;
  check_and_parse SGitHubPRReviewComment (GitHubPRReviewCommentSchema E) response.

(** The URL of [updatePullRequest] (line 134). *)
Definition updatePullRequest_url (owner repo : string) (pullNumber : Z) : string :=
  "https://api.github.com/repos/" ++ owner ++ "/" ++ repo ++ "/pulls/"
    ++ Number_toString pullNumber.

(** The options object of its [fetch] call (lines 135 to 144). *)
Definition updatePullRequest_init (options : jsobj) : RequestInit :=
  {| method := "PATCH";
     headers := request_headers;
     body := JSON_stringify (JObj options) |}.

Definition updatePullRequest (owner repo : string) (pullNumber : Z)
    (options : jsobj) : M jsval :=
  let url := updatePullRequest_url owner repo pullNumber in
  let init := updatePullRequest_init options in
  response <- call (EvFetch url init) FetchError (fetch E url init) ;;
  check_and_parse SGitHubPullRequest (GitHubPullRequestSchema E) response.

(** The value a tool call returns:
    [{ content: [{ type: "text", text: JSON.stringify(result, null, 2) }] }]. *)
Definition text_content (result : jsval) : jsval :=
  JObj [ ("content",
          JArr [ JObj [ ("type", JStr "text");
                        ("text", optional JStr (JSON_stringify_indent2 result)) ] ]) ].

(** [e.path.join(".")]: a step is a string, or a number that [join]
    converts to one. *)
Definition path_text (p : list PathSegment) : string :=
  join "." (map segment_text p).

(** The message the catch block builds from a [ZodError] (lines 210 to 217). *)
Definition invalid_arguments_message (errors : list ZodIssue) : string :=
  "Invalid arguments: "
    ++ join ", " (map (fun e => path_text (path e) ++ ": " ++ message e) errors).

(** The body of the [try] block (lines 173 to 207). *)
Definition dispatch (request : CallToolRequest) : M jsval :=
  match arguments request with
  | None => throw (Error "Arguments are required")
  | Some args =>
      if String.eqb (name request) "update_pull_request" then
        parsed <- call (EvParse SUpdatePullRequest (JObj args)) ZodError
                    (UpdatePullRequestSchema E args) ;;
        pullRequest <- updatePullRequest (upd_owner parsed) (upd_repo parsed)
                         (upd_pull_number parsed) (upd_options parsed) ;;
        ret (text_content pullRequest)
      else if String.eqb (name request) "create_pr_review_comment" then
        parsed <- call (EvParse SCreatePRReviewComment (JObj args)) ZodError
                    (CreatePRReviewCommentSchema E args) ;;
        comment <- createPRReviewComment (arg_owner parsed) (arg_repo parsed)
                     (arg_pull_number parsed) (arg_body parsed) (arg_commit_id parsed)
                     (arg_path parsed) (arg_line parsed) (arg_side parsed)
                     (arg_start_line parsed) (arg_start_side parsed) ;;
        ret (text_content comment)
      else
        throw (Error ("Unknown tool: " ++ name request))
  end.

(** The catch block (lines 208 to 220). *)
Definition on_error (error : JsError) : M jsval :=
  match error with
  | ZodError errors => throw (Error (invalid_arguments_message errors))
  | _ => throw error
  end.

(** The handler registered for [CallToolRequestSchema]. *)
Definition CallToolRequest_handler (request : CallToolRequest) : M jsval :=
  try_catch (dispatch request) on_error.

End Operations.

(** The names the handler dispatches on. *)
Definition supported_tools : list string :=
  [ "update_pull_request"; "create_pr_review_comment" ].

(** The calls of [fetch] in a trace, in order. *)
Fixpoint requests (t : list Event) : list (string * RequestInit) :=
  match t with
  | [] => []
  | EvFetch url init :: r => (url, init) :: requests r
  | _ :: r => requests r
  end.

(** The values handed to a response schema in a trace. *)
Fixpoint validated (t : list Event) : list jsval :=
  match t with
  | [] => []
  | EvParse SGitHubPRReviewComment v :: r => v :: validated r
  | EvParse SGitHubPullRequest v :: r => v :: validated r
  | _ :: r => validated r
  end.

(** ** A test double

    The test suite replaces the network by a mock server.  The same is
    done here, with small stand-ins for the schemas of [schemas.ts]: they
    serve to run the operations on concrete inputs. *)

Module Mock.

(** Property read [o[k]]: [undefined] when the object has no such key. *)
Definition get (k : string) (o : jsobj) : jsval :=
  match find (fun kv => String.eqb (fst kv) k) o with
  | Some (_, v) => v
  | None => JUndefined
  end.

Definition issue (k msg : string) : ZodIssue :=
  {| path := [Key k]; message := msg |}.

(** [z.string()] and [z.number()] at a key, and an optional side. *)
Definition string_at (k : string) (o : jsobj) : list ZodIssue + string :=
  match get k o with
  | JStr s => inr s
  | JUndefined => inl [issue k "Required"]
  | _ => inl [issue k "Expected string"]
  end.

Definition number_at (k : string) (o : jsobj) : list ZodIssue + Z :=
  match get k o with
  | JNum n => inr n
  | JUndefined => inl [issue k "Required"]
  | _ => inl [issue k "Expected number"]
  end.

Definition optional_number_at (k : string) (o : jsobj) : list ZodIssue + option Z :=
  match get k o with
  | JNum n => inr (Some n)
  | JUndefined => inr None
  | _ => inl [issue k "Expected number"]
  end.

Definition optional_side_at (k : string) (o : jsobj) : list ZodIssue + option Side :=
  match get k o with
  | JUndefined => inr None
  | JStr s =>
      if String.eqb s "LEFT" then inr (Some LEFT)
      else if String.eqb s "RIGHT" then inr (Some RIGHT)
      else inl [issue k "Invalid enum value"]
  | _ => inl [issue k "Invalid enum value"]
  end.

(** Two checks side by side: the issues of both are collected. *)
Definition both {A B} (x : list ZodIssue + A) (y : list ZodIssue + B)
    : list ZodIssue + (A * B) :=
  match x, y with
  | inr a, inr b => inr (a, b)
  | inl e1, inl e2 => inl (e1 ++ e2)%list
  | inl e, inr _ => inl e
  | inr _, inl e => inl e
  end.

Definition finish {A B} (f : A -> B) (x : list ZodIssue + A) : list ZodIssue + B :=
  match x with
  | inl e => inl e
  | inr a => inr (f a)
  end.

Definition without (keys : list string) (o : jsobj) : jsobj :=
  filter (fun kv => negb (existsb (String.eqb (fst kv)) keys)) o.

Definition update_schema (o : jsobj) : list ZodIssue + UpdatePullRequestArgs :=
  finish (fun '(owner, (repo, n)) =>
            {| upd_owner := owner; upd_repo := repo; upd_pull_number := n;
               upd_options := without ["owner"; "repo"; "pull_number"] o |})
    (both (string_at "owner" o) (both (string_at "repo" o) (number_at "pull_number" o))).

Definition comment_schema (o : jsobj) : list ZodIssue + CreatePRReviewCommentArgs :=
  finish (fun '(owner, (repo, (n, (b, (c, (p, (l, (sd, (sl, ss))))))))) =>
            {| arg_owner := owner; arg_repo := repo; arg_pull_number := n;
               arg_body := b; arg_commit_id := c; arg_path := p; arg_line := l;
               arg_side := sd; arg_start_line := sl; arg_start_side := ss |})
    (both (string_at "owner" o) (both (string_at "repo" o)
      (both (number_at "pull_number" o) (both (string_at "body" o)
        (both (string_at "commit_id" o) (both (string_at "path" o)
          (both (number_at "line" o) (both (optional_side_at "side" o)
            (both (optional_number_at "start_line" o)
                  (optional_side_at "start_side" o)))))))))).

(** A response schema that asks for a numeric [id] and keeps the rest. *)
Definition response_schema (v : jsval) : list ZodIssue + jsval :=
  match v with
  | JObj props => finish (fun _ => v) (number_at "id" props)
  | _ => inl [ {| path := []; message := "Expected object" |} ]
  end.

(** The environment of a test: the response [r] to every request, and a
    body reader that yields [data]. *)
Definition env (r : Response) (data : jsval) : Env :=
  {| GITHUB_PERSONAL_ACCESS_TOKEN := "test-token";
     fetch := fun _ _ => inr r;
     response_json := fun _ => inr data;
     UpdatePullRequestSchema := update_schema;
     CreatePRReviewCommentSchema := comment_schema;
     GitHubPRReviewCommentSchema := response_schema;
     GitHubPullRequestSchema := response_schema |}.

Definition unprocessable : Response :=
  {| status := 422; statusText := "Unprocessable Entity - Invalid commit SHA";
     raw_body := "" |}.

Definition created : Response :=
  {| status := 201; statusText := "Created"; raw_body := "{}" |}.

(** The arguments of a well-formed [create_pr_review_comment] call. *)
Definition comment_call_args : jsobj :=
  [ ("owner", JStr "o"); ("repo", JStr "r"); ("pull_number", JNum 123);
    ("body", JStr "x"); ("commit_id", JStr "abc123"); ("path", JStr "f.ts");
    ("line", JNum 42) ].

End Mock.

(** ** The tool listing, and the exchange behind a tool call *)

(** The handler registered for [ListToolsRequestSchema] (lines 154 to
    169).  [zodToJsonSchema] belongs to an external package and is a
    parameter. *)
Definition ListToolsRequest_handler (zodToJsonSchema : SchemaName -> jsval) : jsval :=
  JObj [ ("tools",
          JArr [ JObj [ ("name", JStr "update_pull_request");
                        ("description", JStr "Update an existing pull request");
                        ("inputSchema", zodToJsonSchema SUpdatePullRequest) ];
                 JObj [ ("name", JStr "create_pr_review_comment");
                        ("description",
                         JStr "Create a review comment on a specific line in a pull request");
                        ("inputSchema", zodToJsonSchema SCreatePRReviewComment) ] ]) ].

(** Property read [v[k]] on any value: [undefined] unless [v] is an
    object that holds [k]. *)
Definition property (k : string) (v : jsval) : jsval :=
  match v with
  | JObj props =>
      match find (fun kv => String.eqb (fst kv) k) props with
      | Some (_, x) => x
      | None => JUndefined
      end
  | _ => JUndefined
  end.

(** What a client reads off a listing: [listing.tools.map(t => t.name)],
    the names that are strings. *)
Definition tool_names (listing : jsval) : list string :=
  match property "tools" listing with
  | JArr tools =>
      flat_map (fun t => match property "name" t with
                         | JStr n => [n]
                         | _ => []
                         end) tools
  | _ => []
  end.

(** The request a tool call leads to: that of the operation the name
    selects, on the parameters the input schema returns.  There is none
    when the name selects no operation or the schema rejects the
    arguments. *)
Definition request_of_call (E : Env) (n : string) (args : jsobj)
    : option (string * RequestInit) :=
  if String.eqb n "update_pull_request" then
    match UpdatePullRequestSchema E args with
    | inr p =>
        Some (updatePullRequest_url (upd_owner p) (upd_repo p) (upd_pull_number p),
              updatePullRequest_init E (upd_options p))
    | inl _ => None
    end
  else if String.eqb n "create_pr_review_comment" then
    match CreatePRReviewCommentSchema E args with
    | inr p =>
        Some (createPRReviewComment_url (arg_owner p) (arg_repo p) (arg_pull_number p),
              createPRReviewComment_init E (arg_body p) (arg_commit_id p) (arg_path p)
                (arg_line p) (arg_side p) (arg_start_line p) (arg_start_side p))
    | inl _ => None
    end
  else None.

(** The schema the selected operation parses the response with. *)
Definition response_schema (E : Env) (n : string) : jsval -> list ZodIssue + jsval :=
  if String.eqb n "update_pull_request" then GitHubPullRequestSchema E
  else GitHubPRReviewCommentSchema E.

(** The responses whose body was read in a trace: the calls of
    [response.json()]. *)
Fixpoint body_reads (t : list Event) : list Response :=
  match t with
  | [] => []
  | EvJson r :: rest => r :: body_reads rest
  | _ :: rest => body_reads rest
  end.

(** The properties of an object that hold a value. *)
Definition defined_props (props : jsobj) : jsobj :=
  filter (fun kv => match snd kv with JUndefined => false | _ => true end) props.

(** Test doubles for the failures of the exchange itself. *)
Module Faults.

(** No network: every [fetch] is rejected. *)
Definition offline : Env :=
  {| GITHUB_PERSONAL_ACCESS_TOKEN := "test-token";
     fetch := fun _ _ => inl "request to https://api.github.com failed";
     response_json := fun _ => inr JNull;
     UpdatePullRequestSchema := Mock.update_schema;
     CreatePRReviewCommentSchema := Mock.comment_schema;
     GitHubPRReviewCommentSchema := Mock.response_schema;
     GitHubPullRequestSchema := Mock.response_schema |}.

(** A server that answers [r] with a body that is not JSON. *)
Definition garbled (r : Response) : Env :=
  {| GITHUB_PERSONAL_ACCESS_TOKEN := "test-token";
     fetch := fun _ _ => inr r;
     response_json := fun _ => inl "invalid json response body";
     UpdatePullRequestSchema := Mock.update_schema;
     CreatePRReviewCommentSchema := Mock.comment_schema;
     GitHubPRReviewCommentSchema := Mock.response_schema;
     GitHubPullRequestSchema := Mock.response_schema |}.

(** The arguments of a well-formed [update_pull_request] call. *)
Definition update_call_args : jsobj :=
  [ ("owner", JStr "o"); ("repo", JStr "r"); ("pull_number", JNum 7);
    ("title", JStr "t") ].

End Faults.

(** ** Facts about [JSON.stringify] *)

(** Only [undefined] serializes to [undefined]. *)
Lemma serialize_none_iff (gap indent : string) (v : jsval) :
  SerializeJSONProperty gap indent v = None <-> v = JUndefined.
Proof.
  split.
  - destruct v as [ | | [|] | | | | ]; simpl; intro H; try discriminate H; reflexivity.
  - intros ->; reflexivity.
Qed.

(** The text of an object is the text of its serialized members. *)
Lemma stringify_object (props : jsobj) :
  JSON_stringify (JObj props) = Some (object_text (serialized_members props)).
Proof.
  unfold JSON_stringify, object_text; simpl.
  do 2 f_equal.
  induction props as [ | [k x] r IH]; simpl; [reflexivity | ].
  destruct (SerializeJSONProperty "" "" x) as [sx | ]; simpl; rewrite IH; reflexivity.
Qed.

(** A key is written if and only if the object holds it with a value
    other than [undefined]. *)
Lemma serialized_members_keys (props : jsobj) (k : string) :
  In k (map fst (serialized_members props))
  <-> exists v, In (k, v) props /\ v <> JUndefined.
Proof.
  induction props as [ | [k' x] r IH]; simpl.
  - split; [intros [] | intros (v & [] & _)].
  - destruct (SerializeJSONProperty "" "" x) as [sx | ] eqn:Hx; simpl.
    + rewrite IH; split.
      * intros [-> | (v & Hin & Hv)].
        -- exists x; split; [now left | ].
           intros ->; discriminate Hx.
        -- exists v; split; [now right | exact Hv].
      * intros (v & [Heq | Hin] & Hv).
        -- left; congruence.
        -- right; exists v; now split.
    + apply serialize_none_iff in Hx; subst x.
      rewrite IH; split.
      * intros (v & Hin & Hv); exists v; split; [now right | exact Hv].
      * intros (v & [Heq | Hin] & Hv).
        -- exfalso; apply Hv; congruence.
        -- exists v; now split.
Qed.

(** Each written member carries the serialization of the value the
    object holds under that key. *)
Lemma serialized_members_values (props : jsobj) (k s : string) :
  In (k, s) (serialized_members props) ->
  exists v, In (k, v) props /\ JSON_stringify v = Some s.
Proof.
  unfold JSON_stringify.
  induction props as [ | [k' x] r IH]; simpl; [intros [] | ].
  destruct (SerializeJSONProperty "" "" x) as [sx | ] eqn:Hx; simpl.
  - intros [Heq | Hin].
    + injection Heq as -> ->. exists x; split; [now left | exact Hx].
    + destruct (IH Hin) as (v & Hv & Hs); exists v; split; [now right | exact Hs].
  - intros Hin; destruct (IH Hin) as (v & Hv & Hs); exists v; split; [now right | exact Hs].
Qed.

(** ** Facts about the trace of a run *)

Section Runs.

Variable E : Env.

(** After [fetch] has returned, no further request is issued. *)
Lemma check_and_parse_requests schema parse (r : Response) :
  requests (trace (check_and_parse E schema parse r)) = [].
Proof.
  unfold check_and_parse, trace.
  destruct (ok r); simpl; [ | reflexivity].
  destruct (response_json E r) as [msg | data]; simpl; [reflexivity | ].
  destruct (parse data); destruct schema; reflexivity.
Qed.

(** A response that is not [ok] is turned into the API error at once. *)
Lemma check_and_parse_not_ok schema parse (r : Response) :
  ok r = false ->
  check_and_parse E schema parse r
  = ([], inl (Error ("GitHub API error: " ++ statusText r))).
Proof.
  intro H; unfold check_and_parse; rewrite H; reflexivity.
Qed.

(** An [ok] response whose body reads as [data]: the schema decides. *)
Lemma check_and_parse_ok schema parse (r : Response) (data : jsval) :
  ok r = true -> response_json E r = inr data ->
  check_and_parse E schema parse r
  = ([EvJson r; EvParse schema data],
     match parse data with
     | inl errors => inl (ZodError errors)
     | inr v => inr v
     end).
Proof.
  intros Hok Hjson; unfold check_and_parse; rewrite Hok, Hjson; simpl.
  destruct (parse data); reflexivity.
Qed.

(** [createPRReviewComment] issues one request, whatever the network
    answers. *)
Lemma createPRReviewComment_requests owner repo pullNumber body commitId path line
    side startLine startSide :
  requests (trace (createPRReviewComment E owner repo pullNumber body commitId path
                     line side startLine startSide))
  = [ (createPRReviewComment_url owner repo pullNumber,
       createPRReviewComment_init E body commitId path line side startLine startSide) ].
Proof.
  unfold createPRReviewComment, trace.
  destruct (fetch E _ _) as [msg | r]; simpl; [reflexivity | ].
  pose proof (check_and_parse_requests SGitHubPRReviewComment
                (GitHubPRReviewCommentSchema E) r) as H.
  unfold trace in H.
  destruct (check_and_parse E _ _ r) as [t res]; simpl in *.
  now rewrite H.
Qed.

(** So does [updatePullRequest]. *)
Lemma updatePullRequest_requests owner repo pullNumber options :
  requests (trace (updatePullRequest E owner repo pullNumber options))
  = [ (updatePullRequest_url owner repo pullNumber, updatePullRequest_init E options) ].
Proof.
  unfold updatePullRequest, trace.
  destruct (fetch E _ _) as [msg | r]; simpl; [reflexivity | ].
  pose proof (check_and_parse_requests SGitHubPullRequest
                (GitHubPullRequestSchema E) r) as H.
  unfold trace in H.
  destruct (check_and_parse E _ _ r) as [t res]; simpl in *.
  now rewrite H.
Qed.

(** The [ok] test, read on the status code. *)
Lemma ok_false_iff (r : Response) :
  ok r = false <-> ~ (200 <= status r < 300).
Proof.
  unfold ok; rewrite andb_false_iff, Z.leb_gt, Z.ltb_ge; lia.
Qed.

(** A call without arguments stops at the first test of the handler. *)
Lemma handler_no_arguments (n : string) :
  CallToolRequest_handler E {| name := n; arguments := None |}
  = ([], inl (Error "Arguments are required")).
Proof. reflexivity. Qed.

(** A call with arguments under a name that is neither tool name reaches
    the [default] branch. *)
Lemma handler_default (n : string) (args : jsobj) :
  n <> "update_pull_request" -> n <> "create_pr_review_comment" ->
  CallToolRequest_handler E {| name := n; arguments := Some args |}
  = ([], inl (Error ("Unknown tool: " ++ n))).
Proof.
  intros H1 H2.
  apply String.eqb_neq in H1, H2.
  unfold CallToolRequest_handler, dispatch; simpl.
  rewrite H1, H2; reflexivity.
Qed.

(** The catch block turns every [ZodError] of the [try] block into an
    [Error] with the "Invalid arguments" message, and rethrows the
    rest. *)
Lemma handler_rewrites_zod (request : CallToolRequest) (t : list Event)
    (errors : list ZodIssue) :
  dispatch E request = (t, inl (ZodError errors)) ->
  CallToolRequest_handler E request
  = (t, inl (Error (invalid_arguments_message errors))).
Proof.
  intro H; unfold CallToolRequest_handler; rewrite H; simpl.
  now rewrite app_nil_r.
Qed.

(** A [ZodError] of the response schema leaves the operation as it
    is. *)
Lemma createPRReviewComment_schema_error owner repo pullNumber comment commitId path
    line side startLine startSide (r : Response) (data : jsval)
    (errors : list ZodIssue) :
  fetch E (createPRReviewComment_url owner repo pullNumber)
    (createPRReviewComment_init E comment commitId path line side startLine startSide)
  = inr r ->
  ok r = true -> response_json E r = inr data ->
  GitHubPRReviewCommentSchema E data = inl errors ->
  outcome (createPRReviewComment E owner repo pullNumber comment commitId path
             line side startLine startSide)
  = inl (ZodError errors).
Proof.
  intros Hfetch Hok Hjson Hparse.
  unfold createPRReviewComment; rewrite Hfetch; simpl.
  rewrite (check_and_parse_ok _ _ r data Hok Hjson), Hparse; reflexivity.
Qed.

Lemma updatePullRequest_schema_error owner repo pullNumber options
    (r : Response) (data : jsval) (errors : list ZodIssue) :
  fetch E (updatePullRequest_url owner repo pullNumber) (updatePullRequest_init E options)
  = inr r ->
  ok r = true -> response_json E r = inr data ->
  GitHubPullRequestSchema E data = inl errors ->
  outcome (updatePullRequest E owner repo pullNumber options) = inl (ZodError errors).
Proof.
  intros Hfetch Hok Hjson Hparse.
  unfold updatePullRequest; rewrite Hfetch; simpl.
  rewrite (check_and_parse_ok _ _ r data Hok Hjson), Hparse; reflexivity.
Qed.

(** Through the handler the same error comes out as an [Error] with the
    message of an argument failure. *)
Lemma handler_update_schema_error (args : jsobj) (parsed : UpdatePullRequestArgs)
    (r : Response) (data : jsval) (errors : list ZodIssue) :
  UpdatePullRequestSchema E args = inr parsed ->
  fetch E (updatePullRequest_url (upd_owner parsed) (upd_repo parsed)
             (upd_pull_number parsed))
    (updatePullRequest_init E (upd_options parsed)) = inr r ->
  ok r = true -> response_json E r = inr data ->
  GitHubPullRequestSchema E data = inl errors ->
  outcome (CallToolRequest_handler E
             {| name := "update_pull_request"; arguments := Some args |})
  = inl (Error (invalid_arguments_message errors)).
Proof.
  intros Hargs Hfetch Hok Hjson Hparse.
  unfold CallToolRequest_handler, dispatch; simpl; rewrite Hargs; simpl.
  unfold updatePullRequest; rewrite Hfetch; simpl.
  rewrite (check_and_parse_ok _ _ r data Hok Hjson), Hparse; reflexivity.
Qed.

End Runs.

(** ** The HTTP error classification *)

(** C1.  When the exchange completes with a status code outside
    200..299, [createPRReviewComment] and [updatePullRequest] throw an
    [Error] whose message is "GitHub API error: " followed by the status
    text of the response.  Nothing is assumed of the response body, the
    body reader or the schemas; the trace of the run holds the [fetch]
    call alone, so the body is neither read nor handed to a schema. *)
Theorem non_2xx_fails_with_status_text (E : Env) (r : Response)
    (owner repo : string) (pullNumber : Z) (body commitId path : string) (line : Z)
    (side : option Side) (startLine : option Z) (startSide : option Side)
    (options : jsobj) :
  ~ (200 <= status r < 300) ->
  (fetch E (createPRReviewComment_url owner repo pullNumber)
     (createPRReviewComment_init E body commitId path line side startLine startSide)
   = inr r ->
   createPRReviewComment E owner repo pullNumber body commitId path line
     side startLine startSide
   = ([ EvFetch (createPRReviewComment_url owner repo pullNumber)
          (createPRReviewComment_init E body commitId path line side startLine startSide) ],
      inl (Error ("GitHub API error: " ++ statusText r))))
  /\ (fetch E (updatePullRequest_url owner repo pullNumber)
        (updatePullRequest_init E options) = inr r ->
      updatePullRequest E owner repo pullNumber options
      = ([ EvFetch (updatePullRequest_url owner repo pullNumber)
             (updatePullRequest_init E options) ],
         inl (Error ("GitHub API error: " ++ statusText r)))).
Proof.
  intro Hstatus; apply ok_false_iff in Hstatus.
  split; intro Hfetch.
  - unfold createPRReviewComment; rewrite Hfetch; simpl.
    now rewrite (check_and_parse_not_ok E _ _ r Hstatus).
  - unfold updatePullRequest; rewrite Hfetch; simpl.
    now rewrite (check_and_parse_not_ok E _ _ r Hstatus).
Qed.

(** The mocked 422 of the test suite, for both operations. *)
Lemma non_2xx_fails_with_status_text_witness :
  ~ (200 <= status Mock.unprocessable < 300)
  /\ outcome (createPRReviewComment (Mock.env Mock.unprocessable JNull)
                "test-owner" "test-repo" 123 "Invalid commit" "invalid-sha"
                "src/file.ts" 42 None None None)
     = inl (Error "GitHub API error: Unprocessable Entity - Invalid commit SHA")
  /\ validated (trace (updatePullRequest (Mock.env Mock.unprocessable JNull)
                         "test-owner" "test-repo" 123 [("title", JStr "Will fail")]))
     = [].
Proof.
  assert (H : ~ (200 <= status Mock.unprocessable < 300)) by (simpl; lia).
  split; [exact H | ].
  destruct (non_2xx_fails_with_status_text (Mock.env Mock.unprocessable JNull)
              Mock.unprocessable "test-owner" "test-repo" 123 "Invalid commit"
              "invalid-sha" "src/file.ts" 42 None None None
              [("title", JStr "Will fail")] H) as [Hc Hu].
  split.
  - rewrite (Hc eq_refl); reflexivity.
  - rewrite (Hu eq_refl); reflexivity.
Defined.

(** ** The tool call handler *)

(** C9.  A call without arguments fails with "Arguments are required"
    under every tool name, supported or not, before anything else
    happens (the trace is empty); its error is never the unknown-tool
    one. *)
Theorem arguments_checked_before_dispatch (E : Env) (n : string) :
  CallToolRequest_handler E {| name := n; arguments := None |}
  = ([], inl (Error "Arguments are required"))
  /\ outcome (CallToolRequest_handler E {| name := n; arguments := None |})
     <> inl (Error ("Unknown tool: " ++ n)).
Proof.
  rewrite handler_no_arguments; split; [reflexivity | ].
  simpl; intro H; discriminate H.
Qed.

(** C7, as stated, fails: an unsupported name with absent arguments does
    not give the unknown-tool message. *)
Lemma unknown_tool_needs_arguments :
  ~ (forall (E : Env) (request : CallToolRequest),
       ~ In (name request) supported_tools ->
       outcome (CallToolRequest_handler E request)
       = inl (Error ("Unknown tool: " ++ name request))).
Proof.
  intro H.
  specialize (H (Mock.env Mock.created JNull)
                {| name := "delete_repository"; arguments := None |}).
  simpl in H.
  assert (Hn : ~ ("update_pull_request" = "delete_repository"
                  \/ "create_pr_review_comment" = "delete_repository" \/ False)).
  { intros [Heq | [Heq | []]]; discriminate Heq. }
  specialize (H Hn); discriminate H.
Qed.

(** C7, amended.  A call that carries arguments under a name outside
    the supported set fails with "Unknown tool: " followed by the name;
    a call without arguments fails with "Arguments are required",
    whatever its name. *)
Theorem unknown_tool_or_missing_arguments (E : Env) (n : string) (args : jsobj) (n' : string) :
  ~ In n supported_tools ->
  outcome (CallToolRequest_handler E {| name := n; arguments := Some args |})
  = inl (Error ("Unknown tool: " ++ n))
  /\ outcome (CallToolRequest_handler E {| name := n'; arguments := None |})
     = inl (Error "Arguments are required").
Proof.
  intro Hn; split.
  - rewrite handler_default; [reflexivity | | ];
      intros ->; apply Hn; simpl; auto.
  - now rewrite handler_no_arguments.
Qed.

Lemma unknown_tool_or_missing_arguments_witness :
  ~ In "delete_repository" supported_tools
  /\ outcome (CallToolRequest_handler (Mock.env Mock.created JNull)
                {| name := "delete_repository"; arguments := Some [] |})
     = inl (Error "Unknown tool: delete_repository")
  /\ outcome (CallToolRequest_handler (Mock.env Mock.created JNull)
                {| name := "update_pull_request"; arguments := None |})
     = inl (Error "Arguments are required").
Proof.
  assert (Hn : ~ In "delete_repository" supported_tools).
  { simpl; intros [Heq | [Heq | []]]; discriminate Heq. }
  split; [exact Hn | ].
  exact (unknown_tool_or_missing_arguments (Mock.env Mock.created JNull)
           "delete_repository" [] "update_pull_request" Hn).
Defined.

(** C6.  A call to a supported tool whose arguments the tool's input
    schema rejects fails with an [Error] whose message is
    "Invalid arguments: " followed by one "path: message" entry per
    issue, the path steps joined by "." and the entries by ", "; no
    request has been issued. *)
Theorem invalid_arguments_fail_fast (E : Env) (n : string) (args : jsobj)
    (issues : list ZodIssue) :
  (n = "update_pull_request" /\ UpdatePullRequestSchema E args = inl issues)
  \/ (n = "create_pr_review_comment" /\ CreatePRReviewCommentSchema E args = inl issues) ->
  requests (trace (CallToolRequest_handler E {| name := n; arguments := Some args |})) = []
  /\ outcome (CallToolRequest_handler E {| name := n; arguments := Some args |})
     = inl (Error ("Invalid arguments: "
                   ++ String.concat ", "
                        (map (fun e => String.concat "." (map segment_text (path e))
                                       ++ ": " ++ message e) issues))).
Proof.
  intros [[-> H] | [-> H]];
    unfold CallToolRequest_handler, dispatch; simpl; rewrite H; simpl;
    split; reflexivity.
Qed.

Lemma invalid_arguments_fail_fast_witness :
  Mock.comment_schema [("owner", JStr "o"); ("side", JStr "UP")]
  = inl (map (fun k => Mock.issue k "Required")
           ["repo"; "pull_number"; "body"; "commit_id"; "path"; "line"]
         ++ [Mock.issue "side" "Invalid enum value"])%list
  /\ requests (trace (CallToolRequest_handler (Mock.env Mock.created JNull)
                        {| name := "create_pr_review_comment";
                           arguments := Some [("owner", JStr "o"); ("side", JStr "UP")] |}))
     = []
  /\ outcome (CallToolRequest_handler (Mock.env Mock.created JNull)
                {| name := "create_pr_review_comment";
                   arguments := Some [("owner", JStr "o"); ("side", JStr "UP")] |})
     = inl (Error ("Invalid arguments: repo: Required, pull_number: Required, "
                   ++ "body: Required, commit_id: Required, path: Required, "
                   ++ "line: Required, side: Invalid enum value")).
Proof.
  assert (H : Mock.comment_schema [("owner", JStr "o"); ("side", JStr "UP")]
              = inl (map (fun k => Mock.issue k "Required")
                       ["repo"; "pull_number"; "body"; "commit_id"; "path"; "line"]
                     ++ [Mock.issue "side" "Invalid enum value"])%list)
    by reflexivity.
  split; [exact H | ].
  exact (invalid_arguments_fail_fast (Mock.env Mock.created JNull)
           "create_pr_review_comment" [("owner", JStr "o"); ("side", JStr "UP")]
           _ (or_intror (conj eq_refl H))).
Defined.

(** C2.  The operation itself lets the [ZodError] of the response schema
    through, but the handler's catch block takes it for an error of the
    arguments: on a 201 response whose body lacks [id], the tool call
    fails with an [Error] reading "Invalid arguments: id: Required",
    not with the schema's error. *)
Theorem response_validation_error_is_rewritten :
  outcome (createPRReviewComment (Mock.env Mock.created (JObj []))
             "o" "r" 123 "x" "abc123" "f.ts" 42 None None None)
  = inl (ZodError [Mock.issue "id" "Required"])
  /\ outcome (CallToolRequest_handler (Mock.env Mock.created (JObj []))
                {| name := "create_pr_review_comment";
                   arguments := Some Mock.comment_call_args |})
     = inl (Error "Invalid arguments: id: Required").
Proof. split; reflexivity. Qed.

(** ** The outbound requests *)

(** C3.  The request of [updatePullRequest] carries as body the
    serialization of the options object itself: its members are the
    options, in order.  A key is in the body if and only if the options
    hold it with a value (a value other than [undefined]), and what is
    written under a key is the serialization of the value supplied
    under it. *)
Theorem update_body_is_options_verbatim (E : Env) (owner repo : string)
    (pullNumber : Z) (options : jsobj) :
  requests (trace (updatePullRequest E owner repo pullNumber options))
  = [ (updatePullRequest_url owner repo pullNumber,
       {| method := "PATCH"; headers := request_headers E;
          body := JSON_stringify (JObj options) |}) ]
  /\ JSON_stringify (JObj options) = Some (object_text (serialized_members options))
  /\ (forall k, In k (body_keys options)
                <-> exists v, In (k, v) options /\ v <> JUndefined)
  /\ (forall k s, In (k, s) (serialized_members options) ->
                  exists v, In (k, v) options /\ JSON_stringify v = Some s).
Proof.
  split; [ | split; [ | split]].
  - apply updatePullRequest_requests.
  - apply stringify_object.
  - apply serialized_members_keys.
  - apply serialized_members_values.
Qed.

(** Scenario 3 of the specification: the body of a state change. *)
Example update_state_closed_body :
  body (updatePullRequest_init (Mock.env Mock.created JNull) [("state", JStr "closed")])
  = Some (String.concat JS.dq ["{"; "state"; ":"; "closed"; "}"]).
Proof. reflexivity. Qed.

(** C4, as stated, fails: with "RIGHT" passed explicitly the side field
    is "RIGHT" although the parameter was not omitted. *)
Lemma side_RIGHT_without_omission :
  ~ (forall side : option Side,
       member "side"
         (serialized_members
            (createPRReviewComment_payload "x" "abc123" "f.ts" 42 side None None))
       = Some (QuoteJSONString "RIGHT")
       <-> side = None).
Proof.
  intro H.
  destruct (H (Some RIGHT)) as [Himp _].
  discriminate (Himp eq_refl).
Qed.

(** C4, amended.  The side field of the body is the side passed, and
    "RIGHT" when none is passed: it is "RIGHT" if and only if the
    parameter was omitted or was "RIGHT", and it is "LEFT" if and only
    if "LEFT" was passed. *)
Theorem side_defaults_to_RIGHT (E : Env) (comment commitId path : string) (line : Z)
    (side : option Side) (startLine : option Z) (startSide : option Side) :
  let payload :=
    createPRReviewComment_payload comment commitId path line side startLine startSide in
  body (createPRReviewComment_init E comment commitId path line side startLine startSide)
  = Some (object_text (serialized_members payload))
  /\ (member "side" (serialized_members payload) = Some (QuoteJSONString "RIGHT")
      <-> side = None \/ side = Some RIGHT)
  /\ (member "side" (serialized_members payload) = Some (QuoteJSONString "LEFT")
      <-> side = Some LEFT).
Proof.
  intro payload; split; [apply stringify_object | ].
  assert (Hside : member "side" (serialized_members payload)
                  = Some (QuoteJSONString (Side_text (side_or_RIGHT side))))
    by reflexivity.
  rewrite Hside.
  destruct side as [[ | ] | ]; simpl; (split; split; intro H);
    try discriminate H; try reflexivity; auto;
    destruct H as [H | H]; discriminate H.
Qed.




(** Scenario 1 of the specification: the body when no side is passed. *)
Example comment_body_default_side :
  body (createPRReviewComment_init (Mock.env Mock.created JNull)
          "x" "abc123" "f.ts" 42 None None None)
  = Some (String.concat JS.dq
            [ "{"; "body"; ":"; "x"; ","; "commit_id"; ":"; "abc123"; ",";
              "path"; ":"; "f.ts"; ","; "line"; ":42,"; "side"; ":"; "RIGHT"; "}" ]).
Proof. reflexivity. Qed.

(** C8.  The request an operation issues depends on its parameters and
    on the token only: two invocations with the same parameters issue
    the same method, URL, headers and body, whatever the network, the
    body reader and the schemas do in either. *)
Theorem request_building_deterministic (E1 E2 : Env)
    (owner repo : string) (pullNumber : Z) (comment commitId path : string) (line : Z)
    (side : option Side) (startLine : option Z) (startSide : option Side)
    (options : jsobj) :
  GITHUB_PERSONAL_ACCESS_TOKEN E1 = GITHUB_PERSONAL_ACCESS_TOKEN E2 ->
  requests (trace (createPRReviewComment E1 owner repo pullNumber comment commitId path
                     line side startLine startSide))
  = requests (trace (createPRReviewComment E2 owner repo pullNumber comment commitId path
                       line side startLine startSide))
  /\ requests (trace (updatePullRequest E1 owner repo pullNumber options))
     = requests (trace (updatePullRequest E2 owner repo pullNumber options)).
Proof.
  intro Htoken.
  rewrite !createPRReviewComment_requests, !updatePullRequest_requests.
  unfold createPRReviewComment_init, updatePullRequest_init, request_headers.
  rewrite Htoken; split; reflexivity.
Qed.

(** The same request under a network that answers 422 and under one
    that answers 201. *)
Lemma request_building_deterministic_witness :
  GITHUB_PERSONAL_ACCESS_TOKEN (Mock.env Mock.unprocessable JNull)
  = GITHUB_PERSONAL_ACCESS_TOKEN (Mock.env Mock.created (JObj [("id", JNum 1)]))
  /\ requests (trace (createPRReviewComment (Mock.env Mock.unprocessable JNull)
                        "o" "r" 123 "x" "abc123" "f.ts" 42 (Some LEFT) (Some 40) (Some LEFT)))
     = requests (trace (createPRReviewComment (Mock.env Mock.created (JObj [("id", JNum 1)]))
                          "o" "r" 123 "x" "abc123" "f.ts" 42 (Some LEFT) (Some 40) (Some LEFT)))
  /\ requests (trace (updatePullRequest (Mock.env Mock.unprocessable JNull)
                        "o" "r" 123 [("title", JStr "t")]))
     = requests (trace (updatePullRequest (Mock.env Mock.created (JObj [("id", JNum 1)]))
                          "o" "r" 123 [("title", JStr "t")])).
Proof.
  split; [reflexivity | ].
  exact (request_building_deterministic (Mock.env Mock.unprocessable JNull)
           (Mock.env Mock.created (JObj [("id", JNum 1)]))
           "o" "r" 123 "x" "abc123" "f.ts" 42 (Some LEFT) (Some 40) (Some LEFT)
           [("title", JStr "t")] eq_refl).
Defined.

(** C10.  [updatePullRequest] with an empty options object does not
    stop before the network: the first effect of the run is the PATCH
    request, whose body is the two characters of an empty JSON object,
    and the outcome is what the exchange gives: the rejection of
    [fetch], or the result of classifying and validating the
    response. *)
Theorem update_with_empty_options (E : Env) (owner repo : string) (pullNumber : Z) :
  let url := updatePullRequest_url owner repo pullNumber in
  let init := {| method := "PATCH"; headers := request_headers E; body := Some "{}" |} in
  String.length "{}" = 2%nat
  /\ (exists rest,
        trace (updatePullRequest E owner repo pullNumber []) = EvFetch url init :: rest
        /\ requests rest = [])
  /\ outcome (updatePullRequest E owner repo pullNumber [])
     = match fetch E url init with
       | inl msg => inl (FetchError msg)
       | inr r => outcome (check_and_parse E SGitHubPullRequest
                             (GitHubPullRequestSchema E) r)
       end.
Proof.
  intros url init; split; [reflexivity | ].
  unfold updatePullRequest, trace, outcome.
  change (updatePullRequest_init E []) with init.
  fold url.
  destruct (fetch E url init) as [msg | r]; simpl.
  - split; [exists []; split; reflexivity | reflexivity].
  - pose proof (check_and_parse_requests E SGitHubPullRequest
                  (GitHubPullRequestSchema E) r) as H.
    unfold trace in H.
    destruct (check_and_parse E _ _ r) as [t res]; simpl in *.
    split; [exists t; split; [reflexivity | exact H] | reflexivity].
Qed.

(** An empty update against the mock server: the call goes out and the
    validated response comes back. *)
Example update_with_empty_options_run :
  updatePullRequest (Mock.env Mock.created (JObj [("id", JNum 1)]))
    "test-owner" "test-repo" 123 []
  = ([ EvFetch "https://api.github.com/repos/test-owner/test-repo/pulls/123"
         {| method := "PATCH";
            headers := request_headers (Mock.env Mock.created JNull);
            body := Some "{}" |};
       EvJson Mock.created;
       EvParse SGitHubPullRequest (JObj [("id", JNum 1)]) ],
     inr (JObj [("id", JNum 1)])).
Proof. reflexivity. Qed.

(** ** A tool call from end to end *)

Section Calls.

Variable E : Env.

(** The run of a call whose arguments pass the input schema, by what
    the network, the body reader and the response schema do: [si] and
    [so] are the names of the input and the response schema. *)
Lemma handler_run (n : string) (args : jsobj) (url : string) (init : RequestInit) :
  request_of_call E n args = Some (url, init) ->
  exists si so,
    ((si = SUpdatePullRequest /\ so = SGitHubPullRequest)
     \/ (si = SCreatePRReviewComment /\ so = SGitHubPRReviewComment))
    /\ CallToolRequest_handler E {| name := n; arguments := Some args |}
       = match fetch E url init with
         | inl msg =>
             ([EvParse si (JObj args); EvFetch url init], inl (FetchError msg))
         | inr r =>
             if ok r then
               match response_json E r with
               | inl msg =>
                   ([EvParse si (JObj args); EvFetch url init; EvJson r],
                    inl (BodyError msg))
               | inr data =>
                   ([EvParse si (JObj args); EvFetch url init; EvJson r;
                     EvParse so data],
                    match response_schema E n data with
                    | inl errors => inl (Error (invalid_arguments_message errors))
                    | inr v => inr (text_content v)
                    end)
               end
             else
               ([EvParse si (JObj args); EvFetch url init],
                inl (Error ("GitHub API error: " ++ statusText r)))
         end.
Proof.
  unfold request_of_call, response_schema.
  destruct (String.eqb n "update_pull_request") eqn:Hu.
  - apply String.eqb_eq in Hu; subst n.
    destruct (UpdatePullRequestSchema E args) as [errs | p] eqn:Hp; [discriminate | ].
    intro H; injection H as <- <-.
    exists SUpdatePullRequest, SGitHubPullRequest; split; [left; now split | ].
    unfold CallToolRequest_handler, dispatch, updatePullRequest, check_and_parse.
    simpl; rewrite Hp; simpl.
    destruct (fetch E _ _) as [msg | r]; simpl; [reflexivity | ].
    destruct (ok r); simpl; [ | reflexivity].
    destruct (response_json E r) as [msg | data]; simpl; [reflexivity | ].
    destruct (GitHubPullRequestSchema E data); reflexivity.
  - destruct (String.eqb n "create_pr_review_comment") eqn:Hc; [ | discriminate].
    apply String.eqb_eq in Hc; subst n.
    destruct (CreatePRReviewCommentSchema E args) as [errs | p] eqn:Hp; [discriminate | ].
    intro H; injection H as <- <-.
    exists SCreatePRReviewComment, SGitHubPRReviewComment; split; [right; now split | ].
    unfold CallToolRequest_handler, dispatch, createPRReviewComment, check_and_parse.
    simpl; rewrite Hp; simpl.
    destruct (fetch E _ _) as [msg | r]; simpl; [reflexivity | ].
    destruct (ok r); simpl; [ | reflexivity].
    destruct (response_json E r) as [msg | data]; simpl; [reflexivity | ].
    destruct (GitHubPRReviewCommentSchema E data); reflexivity.
Qed.

(** A call whose arguments the input schema rejects, or whose name
    selects nothing, ends before the network. *)
Lemma handler_no_request (n : string) (args : jsobj) :
  request_of_call E n args = None ->
  requests (trace (CallToolRequest_handler E {| name := n; arguments := Some args |})) = []
  /\ validated (trace (CallToolRequest_handler E {| name := n; arguments := Some args |})) = []
  /\ exists msg,
       outcome (CallToolRequest_handler E {| name := n; arguments := Some args |})
       = inl (Error msg).
Proof.
  unfold request_of_call, CallToolRequest_handler, dispatch; simpl.
  destruct (String.eqb n "update_pull_request").
  - destruct (UpdatePullRequestSchema E args) as [errs | p]; [ | discriminate].
    intros _; simpl; repeat split; eexists; reflexivity.
  - destruct (String.eqb n "create_pr_review_comment").
    + destruct (CreatePRReviewCommentSchema E args) as [errs | p]; [ | discriminate].
      intros _; simpl; repeat split; eexists; reflexivity.
    + intros _; simpl; repeat split; eexists; reflexivity.
Qed.

(** The [ok] test passes on the status codes 200 to 299. *)
Lemma ok_true_iff (r : Response) :
  ok r = true <-> 200 <= status r < 300.
Proof.
  unfold ok; rewrite andb_true_iff, Z.leb_le, Z.ltb_lt; lia.
Qed.

End Calls.

(** Rewrites the run of a call that has a request, and splits on the
    two tools. *)
Ltac run_call E Hreq :=
  let si := fresh "si" in
  let so := fresh "so" in
  let Hs := fresh "Hs" in
  let Hrun := fresh "Hrun" in
  destruct (handler_run E _ _ _ _ Hreq) as (si & so & Hs & Hrun);
  rewrite Hrun; clear Hrun;
  destruct Hs as [[-> ->] | [-> ->]].

(** X1.  On a response with a status in 200..299 whose body reads as
    [data], each operation reads the body once, hands [data] to its
    response schema, and returns what the schema returns (not the data
    it was given). *)
Theorem operations_return_schema_output (E : Env) (r : Response) (data v : jsval)
    (owner repo : string) (pullNumber : Z) (comment commitId path : string) (line : Z)
    (side : option Side) (startLine : option Z) (startSide : option Side)
    (options : jsobj) :
  200 <= status r < 300 ->
  response_json E r = inr data ->
  (fetch E (createPRReviewComment_url owner repo pullNumber)
     (createPRReviewComment_init E comment commitId path line side startLine startSide)
   = inr r ->
   GitHubPRReviewCommentSchema E data = inr v ->
   createPRReviewComment E owner repo pullNumber comment commitId path line
     side startLine startSide
   = ([ EvFetch (createPRReviewComment_url owner repo pullNumber)
          (createPRReviewComment_init E comment commitId path line side startLine startSide);
        EvJson r; EvParse SGitHubPRReviewComment data ],
      inr v))
  /\ (fetch E (updatePullRequest_url owner repo pullNumber)
        (updatePullRequest_init E options) = inr r ->
      GitHubPullRequestSchema E data = inr v ->
      updatePullRequest E owner repo pullNumber options
      = ([ EvFetch (updatePullRequest_url owner repo pullNumber)
             (updatePullRequest_init E options);
           EvJson r; EvParse SGitHubPullRequest data ],
         inr v)).
Proof.
  intros Hstatus Hjson; apply ok_true_iff in Hstatus.
  split; intros Hfetch Hparse.
  - unfold createPRReviewComment; rewrite Hfetch; simpl.
    rewrite (check_and_parse_ok E _ _ r data Hstatus Hjson), Hparse; reflexivity.
  - unfold updatePullRequest; rewrite Hfetch; simpl.
    rewrite (check_and_parse_ok E _ _ r data Hstatus Hjson), Hparse; reflexivity.
Qed.

Lemma operations_return_schema_output_witness :
  200 <= status Mock.created < 300
  /\ outcome (createPRReviewComment
                (Mock.env Mock.created (JObj [("id", JNum 1); ("path", JStr "f.ts")]))
                "o" "r" 123 "x" "abc123" "f.ts" 42 None None None)
     = inr (JObj [("id", JNum 1); ("path", JStr "f.ts")])
  /\ trace (updatePullRequest
              (Mock.env Mock.created (JObj [("id", JNum 1); ("path", JStr "f.ts")]))
              "o" "r" 123 [("state", JStr "closed")])
     = [ EvFetch "https://api.github.com/repos/o/r/pulls/123"
           (updatePullRequest_init (Mock.env Mock.created JNull) [("state", JStr "closed")]);
         EvJson Mock.created;
         EvParse SGitHubPullRequest (JObj [("id", JNum 1); ("path", JStr "f.ts")]) ].
Proof.
  assert (H : 200 <= status Mock.created < 300) by (simpl; lia).
  split; [exact H | ].
  destruct (operations_return_schema_output
              (Mock.env Mock.created (JObj [("id", JNum 1); ("path", JStr "f.ts")]))
              Mock.created (JObj [("id", JNum 1); ("path", JStr "f.ts")])
              (JObj [("id", JNum 1); ("path", JStr "f.ts")])
              "o" "r" 123 "x" "abc123" "f.ts" 42 None None None
              [("state", JStr "closed")] H eq_refl) as [Hc Hu].
  split.
  - rewrite (Hc eq_refl eq_refl); reflexivity.
  - rewrite (Hu eq_refl eq_refl); reflexivity.
Defined.

(** X2.  A tool call whose arguments pass the input schema, answered
    with a status in 200..299 and a body the response schema accepts,
    returns one content item of type "text" whose text is the schema's
    output serialized with an indentation of two spaces; one request
    was issued and one value validated. *)
Theorem tool_call_returns_text_content (E : Env) (n : string) (args : jsobj)
    (url : string) (init : RequestInit) (r : Response) (data v : jsval) :
  request_of_call E n args = Some (url, init) ->
  fetch E url init = inr r ->
  200 <= status r < 300 ->
  response_json E r = inr data ->
  response_schema E n data = inr v ->
  outcome (CallToolRequest_handler E {| name := n; arguments := Some args |})
  = inr (JObj [ ("content",
                 JArr [ JObj [ ("type", JStr "text");
                               ("text", match JSON_stringify_indent2 v with
                                        | Some text => JStr text
                                        | None => JUndefined
                                        end) ] ]) ])
  /\ requests (trace (CallToolRequest_handler E {| name := n; arguments := Some args |}))
     = [ (url, init) ]
  /\ validated (trace (CallToolRequest_handler E {| name := n; arguments := Some args |}))
     = [ data ].
Proof.
  intros Hreq Hfetch Hstatus Hjson Hparse; apply ok_true_iff in Hstatus.
  run_call E Hreq; rewrite Hfetch, Hstatus, Hjson, Hparse;
    repeat split; reflexivity.
Qed.

Lemma tool_call_returns_text_content_witness :
  200 <= status Mock.created < 300
  /\ outcome (CallToolRequest_handler (Mock.env Mock.created (JObj [("id", JNum 1)]))
                {| name := "create_pr_review_comment";
                   arguments := Some Mock.comment_call_args |})
     = inr (JObj [ ("content",
                    JArr [ JObj [ ("type", JStr "text");
                                  ("text", JStr ("{" ++ newline ++ "  " ++ dq ++ "id" ++ dq
                                                 ++ ": 1" ++ newline ++ "}")) ] ]) ]).
Proof.
  assert (H : 200 <= status Mock.created < 300) by (simpl; lia).
  split; [exact H | ].
  exact (proj1 (tool_call_returns_text_content
                  (Mock.env Mock.created (JObj [("id", JNum 1)]))
                  "create_pr_review_comment" Mock.comment_call_args _ _
                  Mock.created (JObj [("id", JNum 1)]) (JObj [("id", JNum 1)])
                  eq_refl eq_refl H eq_refl eq_refl)).
Defined.

(** X3.  A tool call answered with a status outside 200..299 fails with
    the error of the operation, unchanged by the handler: an [Error]
    reading "GitHub API error: " and the status text.  The one request
    was issued and nothing was validated. *)
Theorem tool_call_api_error (E : Env) (n : string) (args : jsobj)
    (url : string) (init : RequestInit) (r : Response) :
  request_of_call E n args = Some (url, init) ->
  fetch E url init = inr r ->
  ~ (200 <= status r < 300) ->
  outcome (CallToolRequest_handler E {| name := n; arguments := Some args |})
  = inl (Error ("GitHub API error: " ++ statusText r))
  /\ requests (trace (CallToolRequest_handler E {| name := n; arguments := Some args |}))
     = [ (url, init) ]
  /\ validated (trace (CallToolRequest_handler E {| name := n; arguments := Some args |}))
     = [].
Proof.
  intros Hreq Hfetch Hstatus; apply ok_false_iff in Hstatus.
  run_call E Hreq; rewrite Hfetch, Hstatus; repeat split; reflexivity.
Qed.

Lemma tool_call_api_error_witness :
  ~ (200 <= status Mock.unprocessable < 300)
  /\ outcome (CallToolRequest_handler (Mock.env Mock.unprocessable JNull)
                {| name := "update_pull_request";
                   arguments := Some [ ("owner", JStr "o"); ("repo", JStr "r");
                                       ("pull_number", JNum 7); ("title", JStr "t") ] |})
     = inl (Error "GitHub API error: Unprocessable Entity - Invalid commit SHA").
Proof.
  assert (H : ~ (200 <= status Mock.unprocessable < 300)) by (simpl; lia).
  split; [exact H | ].
  exact (proj1 (tool_call_api_error (Mock.env Mock.unprocessable JNull)
                  "update_pull_request"
                  [ ("owner", JStr "o"); ("repo", JStr "r");
                    ("pull_number", JNum 7); ("title", JStr "t") ]
                  _ _ Mock.unprocessable eq_refl eq_refl H)).
Defined.

(** X4.  When [fetch] is rejected, the tool call fails with that
    rejection, unchanged by the handler; the request was attempted once,
    no body was read and nothing was validated: after the parse of the
    arguments, the call of [fetch] is the only effect of the run. *)
Theorem tool_call_network_failure (E : Env) (n : string) (args : jsobj)
    (url : string) (init : RequestInit) (msg : string) :
  request_of_call E n args = Some (url, init) ->
  fetch E url init = inl msg ->
  outcome (CallToolRequest_handler E {| name := n; arguments := Some args |})
  = inl (FetchError msg)
  /\ requests (trace (CallToolRequest_handler E {| name := n; arguments := Some args |}))
     = [ (url, init) ]
  /\ body_reads (trace (CallToolRequest_handler E {| name := n; arguments := Some args |}))
     = []
  /\ validated (trace (CallToolRequest_handler E {| name := n; arguments := Some args |}))
     = []
  /\ (exists schema,
        trace (CallToolRequest_handler E {| name := n; arguments := Some args |})
        = [ EvParse schema (JObj args); EvFetch url init ]).
Proof.
  intros Hreq Hfetch.
  run_call E Hreq; rewrite Hfetch; repeat split; try reflexivity;
    eexists; reflexivity.
Qed.

Lemma tool_call_network_failure_witness :
  outcome (CallToolRequest_handler Faults.offline
             {| name := "update_pull_request"; arguments := Some Faults.update_call_args |})
  = inl (FetchError "request to https://api.github.com failed")
  /\ requests (trace (CallToolRequest_handler Faults.offline
                        {| name := "update_pull_request";
                           arguments := Some Faults.update_call_args |}))
     = [ ("https://api.github.com/repos/o/r/pulls/7",
          updatePullRequest_init Faults.offline [("title", JStr "t")]) ]
  /\ body_reads (trace (CallToolRequest_handler Faults.offline
                          {| name := "update_pull_request";
                             arguments := Some Faults.update_call_args |}))
     = [].
Proof.
  destruct (tool_call_network_failure Faults.offline "update_pull_request"
              Faults.update_call_args _ _ _ eq_refl eq_refl)
    as (Hout & Hreq & Hread & _).
  split; [exact Hout | split; [exact Hreq | exact Hread]].
Defined.

(** X5.  When the status is in 200..299 but [response.json()] is
    rejected, the tool call fails with that rejection, unchanged by the
    handler, and the response schema is never called. *)
Theorem tool_call_unreadable_body (E : Env) (n : string) (args : jsobj)
    (url : string) (init : RequestInit) (r : Response) (msg : string) :
  request_of_call E n args = Some (url, init) ->
  fetch E url init = inr r ->
  200 <= status r < 300 ->
  response_json E r = inl msg ->
  outcome (CallToolRequest_handler E {| name := n; arguments := Some args |})
  = inl (BodyError msg)
  /\ validated (trace (CallToolRequest_handler E {| name := n; arguments := Some args |}))
     = [].
Proof.
  intros Hreq Hfetch Hstatus Hjson; apply ok_true_iff in Hstatus.
  run_call E Hreq; rewrite Hfetch, Hstatus, Hjson; split; reflexivity.
Qed.

Lemma tool_call_unreadable_body_witness :
  200 <= status Mock.created < 300
  /\ outcome (CallToolRequest_handler (Faults.garbled Mock.created)
                {| name := "create_pr_review_comment";
                   arguments := Some Mock.comment_call_args |})
     = inl (BodyError "invalid json response body").
Proof.
  assert (H : 200 <= status Mock.created < 300) by (simpl; lia).
  split; [exact H | ].
  exact (proj1 (tool_call_unreadable_body (Faults.garbled Mock.created)
                  "create_pr_review_comment" Mock.comment_call_args _ _
                  Mock.created _ eq_refl eq_refl H eq_refl)).
Defined.

(** X6.  When the status is in 200..299 and the response schema rejects
    the body, the tool call fails with an [Error] whose message is
    "Invalid arguments: " followed by the issues of the response schema,
    each as "path: message", joined by ", ". *)
Theorem tool_call_response_rejected (E : Env) (n : string) (args : jsobj)
    (url : string) (init : RequestInit) (r : Response) (data : jsval)
    (issues : list ZodIssue) :
  request_of_call E n args = Some (url, init) ->
  fetch E url init = inr r ->
  200 <= status r < 300 ->
  response_json E r = inr data ->
  response_schema E n data = inl issues ->
  outcome (CallToolRequest_handler E {| name := n; arguments := Some args |})
  = inl (Error ("Invalid arguments: "
                ++ String.concat ", "
                     (map (fun e => String.concat "." (map segment_text (path e))
                                    ++ ": " ++ message e) issues)))
  /\ validated (trace (CallToolRequest_handler E {| name := n; arguments := Some args |}))
     = [ data ].
Proof.
  intros Hreq Hfetch Hstatus Hjson Hparse; apply ok_true_iff in Hstatus.
  run_call E Hreq; rewrite Hfetch, Hstatus, Hjson, Hparse; split; reflexivity.
Qed.

Lemma tool_call_response_rejected_witness :
  200 <= status Mock.created < 300
  /\ outcome (CallToolRequest_handler (Mock.env Mock.created (JObj [("id", JStr "1")]))
                {| name := "update_pull_request";
                   arguments := Some Faults.update_call_args |})
     = inl (Error "Invalid arguments: id: Expected number").
Proof.
  assert (H : 200 <= status Mock.created < 300) by (simpl; lia).
  split; [exact H | ].
  exact (proj1 (tool_call_response_rejected
                  (Mock.env Mock.created (JObj [("id", JStr "1")]))
                  "update_pull_request" Faults.update_call_args _ _
                  Mock.created (JObj [("id", JStr "1")]) _
                  eq_refl eq_refl H eq_refl eq_refl)).
Defined.

(** X7.  The handler never throws a [ZodError]: whatever the call, the
    network and the schemas, a failed parse leaves the handler as a
    plain [Error]. *)
Theorem handler_never_throws_ZodError (E : Env) (request : CallToolRequest)
    (errors : list ZodIssue) :
  outcome (CallToolRequest_handler E request) <> inl (ZodError errors).
Proof.
  destruct request as [n [args | ]]; [ | rewrite handler_no_arguments; discriminate].
  destruct (request_of_call E n args) as [[url init] | ] eqn:Hreq.
  - run_call E Hreq;
      (destruct (fetch E url init) as [msg | r]; [discriminate | ];
       destruct (ok r); [ | discriminate];
       destruct (response_json E r) as [msg | data]; [discriminate | ];
       simpl; destruct (response_schema E _ data); discriminate).
  - destruct (handler_no_request E n args Hreq) as (_ & _ & msg & Hout).
    rewrite Hout; discriminate.
Qed.

(** X8.  The requests of a tool call: none when the arguments are
    absent, none when the name selects no operation or the input schema
    rejects the arguments, and otherwise the one request of the selected
    operation, whatever the answer.  No call issues a second request. *)
Theorem handler_requests (E : Env) (request : CallToolRequest) :
  requests (trace (CallToolRequest_handler E request))
  = match arguments request with
    | None => []
    | Some args =>
        match request_of_call E (name request) args with
        | Some q => [ q ]
        | None => []
        end
    end
  /\ (length (requests (trace (CallToolRequest_handler E request))) <= 1)%nat.
Proof.
  assert (Heq : requests (trace (CallToolRequest_handler E request))
                = match arguments request with
                  | None => []
                  | Some args =>
                      match request_of_call E (name request) args with
                      | Some q => [ q ]
                      | None => []
                      end
                  end).
  { destruct request as [n [args | ]]; simpl; [ | reflexivity].
    destruct (request_of_call E n args) as [[url init] | ] eqn:Hreq.
    - run_call E Hreq;
        (destruct (fetch E url init) as [msg | r]; [reflexivity | ];
         destruct (ok r); [ | reflexivity];
         destruct (response_json E r) as [msg | data]; reflexivity).
    - apply (handler_no_request E n args Hreq). }
  split; [exact Heq | ].
  rewrite Heq.
  destruct (arguments request) as [args | ]; simpl; [ | lia].
  destruct (request_of_call E (name request) args); simpl; lia.
Qed.

(** X9.  A tool call returns a value only after the whole exchange went
    well: arguments were present and passed the input schema, the one
    request was answered with a status in 200..299, the body was read,
    and the response schema accepted it; the value returned is the text
    content built from the schema's output. *)
Theorem tool_call_success_inversion (E : Env) (request : CallToolRequest) (v : jsval) :
  outcome (CallToolRequest_handler E request) = inr v ->
  exists args url init r data w,
    arguments request = Some args
    /\ request_of_call E (name request) args = Some (url, init)
    /\ fetch E url init = inr r
    /\ 200 <= status r < 300
    /\ response_json E r = inr data
    /\ response_schema E (name request) data = inr w
    /\ v = text_content w.
Proof.
  destruct request as [n [args | ]]; cbn [name arguments];
    [ | rewrite handler_no_arguments; discriminate].
  destruct (request_of_call E n args) as [[url init] | ] eqn:Hreq.
  - run_call E Hreq;
      (destruct (fetch E url init) as [msg | r] eqn:Hfetch; [discriminate | ];
       destruct (ok r) eqn:Hok; [ | discriminate];
       destruct (response_json E r) as [msg | data] eqn:Hjson; [discriminate | ];
       simpl; destruct (response_schema E _ data) as [errs | w] eqn:Hparse;
       [discriminate | ];
       intro H; injection H as <-;
       exists args, url, init, r, data, w;
       apply ok_true_iff in Hok; repeat split; auto; apply Hok).
  - destruct (handler_no_request E n args Hreq) as (_ & _ & msg & Hout).
    rewrite Hout; discriminate.
Qed.

Lemma tool_call_success_inversion_witness :
  exists args url init r data w,
    Some Faults.update_call_args = Some args
    /\ request_of_call (Mock.env Mock.created (JObj [("id", JNum 1)]))
         "update_pull_request" args = Some (url, init)
    /\ fetch (Mock.env Mock.created (JObj [("id", JNum 1)])) url init = inr r
    /\ 200 <= status r < 300
    /\ response_json (Mock.env Mock.created (JObj [("id", JNum 1)])) r = inr data
    /\ response_schema (Mock.env Mock.created (JObj [("id", JNum 1)]))
         "update_pull_request" data = inr w
    /\ text_content (JObj [("id", JNum 1)]) = text_content w.
Proof.
  exact (tool_call_success_inversion (Mock.env Mock.created (JObj [("id", JNum 1)]))
           {| name := "update_pull_request"; arguments := Some Faults.update_call_args |}
           (text_content (JObj [("id", JNum 1)])) eq_refl).
Defined.

(** X10.  A response schema is only ever handed the body of a response
    to the call's own request whose status is in 200..299: whatever a
    schema validated was read from such a response. *)
Theorem validated_data_comes_from_ok_response (E : Env) (request : CallToolRequest)
    (data : jsval) :
  In data (validated (trace (CallToolRequest_handler E request))) ->
  exists args url init r,
    arguments request = Some args
    /\ request_of_call E (name request) args = Some (url, init)
    /\ fetch E url init = inr r
    /\ 200 <= status r < 300
    /\ response_json E r = inr data.
Proof.
  destruct request as [n [args | ]]; cbn [name arguments];
    [ | rewrite handler_no_arguments; intros []].
  destruct (request_of_call E n args) as [[url init] | ] eqn:Hreq.
  - run_call E Hreq;
      (destruct (fetch E url init) as [msg | r] eqn:Hfetch; [intros [] | ];
       destruct (ok r) eqn:Hok; [ | intros []];
       destruct (response_json E r) as [msg | d] eqn:Hjson; [intros [] | ];
       simpl; intros [<- | []];
       exists args, url, init, r;
       apply ok_true_iff in Hok; repeat split; auto; apply Hok).
  - destruct (handler_no_request E n args Hreq) as (_ & Hval & _).
    rewrite Hval; intros [].
Qed.

Lemma validated_data_comes_from_ok_response_witness :
  In (JObj []) (validated (trace (CallToolRequest_handler
                                    (Mock.env Mock.created (JObj []))
                                    {| name := "create_pr_review_comment";
                                       arguments := Some Mock.comment_call_args |})))
  /\ exists args url init r,
       Some Mock.comment_call_args = Some args
       /\ request_of_call (Mock.env Mock.created (JObj []))
            "create_pr_review_comment" args = Some (url, init)
       /\ fetch (Mock.env Mock.created (JObj [])) url init = inr r
       /\ 200 <= status r < 300
       /\ response_json (Mock.env Mock.created (JObj [])) r = inr (JObj []).
Proof.
  assert (H : In (JObj []) (validated (trace (CallToolRequest_handler
                                    (Mock.env Mock.created (JObj []))
                                    {| name := "create_pr_review_comment";
                                       arguments := Some Mock.comment_call_args |}))))
    by (simpl; left; reflexivity).
  split; [exact H | ].
  exact (validated_data_comes_from_ok_response (Mock.env Mock.created (JObj []))
           {| name := "create_pr_review_comment";
              arguments := Some Mock.comment_call_args |} (JObj []) H).
Defined.

(** X11.  The tool listing and the dispatch agree: the names listed are
    "update_pull_request" and "create_pr_review_comment", in this order,
    whatever the schema converter returns, and a call that carries
    arguments fails with the unknown-tool error if and only if its name
    is not listed. *)
Theorem listing_matches_dispatch (zodToJsonSchema : SchemaName -> jsval) (E : Env)
    (n : string) (args : jsobj) :
  tool_names (ListToolsRequest_handler zodToJsonSchema)
  = [ "update_pull_request"; "create_pr_review_comment" ]
  /\ (~ In n (tool_names (ListToolsRequest_handler zodToJsonSchema))
      <-> outcome (CallToolRequest_handler E {| name := n; arguments := Some args |})
          = inl (Error ("Unknown tool: " ++ n))).
Proof.
  split; [reflexivity | ].
  change (tool_names (ListToolsRequest_handler zodToJsonSchema)) with supported_tools.
  split.
  - intro Hn; rewrite handler_default; [reflexivity | | ];
      intros ->; apply Hn; simpl; auto.
  - intros Hout Hin.
    destruct (request_of_call E n args) as [[url init] | ] eqn:Hreq.
    + revert Hout; run_call E Hreq;
        (destruct (fetch E url init) as [msg | r]; [discriminate | ];
         destruct (ok r); [ | discriminate];
         destruct (response_json E r) as [msg | data]; [discriminate | ];
         simpl; destruct (response_schema E _ data); discriminate).
    + revert Hout Hreq.
      unfold request_of_call, CallToolRequest_handler, dispatch; simpl.
      destruct Hin as [<- | [<- | []]]; simpl.
      * destruct (UpdatePullRequestSchema E args); discriminate.
      * destruct (CreatePRReviewCommentSchema E args); discriminate.
Qed.

(** X12.  "Arguments are required" is the error of a call without
    arguments and of no other call: an arguments object, even an empty
    one, always gets past the first test of the handler. *)
Theorem arguments_required_iff_absent (E : Env) (request : CallToolRequest) :
  outcome (CallToolRequest_handler E request) = inl (Error "Arguments are required")
  <-> arguments request = None.
Proof.
  destruct request as [n [args | ]]; cbn [name arguments];
    [ | rewrite handler_no_arguments; split; reflexivity].
  split; [ | discriminate].
  destruct (request_of_call E n args) as [[url init] | ] eqn:Hreq.
  - run_call E Hreq;
      (destruct (fetch E url init) as [msg | r]; [discriminate | ];
       destruct (ok r); [ | discriminate];
       destruct (response_json E r) as [msg | data]; [discriminate | ];
       simpl; destruct (response_schema E _ data); discriminate).
  - revert Hreq.
    unfold request_of_call, CallToolRequest_handler, dispatch; simpl.
    destruct (String.eqb n "update_pull_request").
    + destruct (UpdatePullRequestSchema E args); discriminate.
    + destruct (String.eqb n "create_pr_review_comment").
      * destruct (CreatePRReviewCommentSchema E args); discriminate.
      * discriminate.
Qed.

(** ** URLs and bodies *)



(** The members written are those of the properties that hold a value. *)
Lemma serialized_members_defined (props : jsobj) :
  serialized_members (defined_props props) = serialized_members props.
Proof.
  induction props as [ | [k x] r IH]; simpl; [reflexivity | ].
  destruct x as [ | | [ | ] | | | | ]; simpl; rewrite IH; reflexivity.
Qed.

(** X14.  The body of [updatePullRequest] lists the options that hold a
    value in the order in which the options object holds them: no key is
    moved, merged or added, and only the properties that are [undefined]
    are skipped. *)
Theorem update_body_keeps_order (E : Env) (options : jsobj) :
  body (updatePullRequest_init E options)
  = Some (object_text (serialized_members options))
  /\ body_keys options = map fst (defined_props options)
  /\ body (updatePullRequest_init E (defined_props options))
     = body (updatePullRequest_init E options).
Proof.
  split; [apply stringify_object | split].
  - unfold body_keys.
    induction options as [ | [k x] r IH]; simpl; [reflexivity | ].
    destruct x as [ | | [ | ] | | | | ]; simpl; rewrite IH; reflexivity.
  - unfold updatePullRequest_init; cbn [body].
    now rewrite !stringify_object, serialized_members_defined.
Qed.

(** X15.  The body of [updatePullRequest] is the empty object "{}" if
    and only if no option holds a value: an options object whose
    properties are all [undefined] is sent like an empty one. *)
Theorem update_body_empty_iff (E : Env) (options : jsobj) :
  body (updatePullRequest_init E options) = Some "{}"
  <-> (forall k v, In (k, v) options -> v = JUndefined).
Proof.
  unfold updatePullRequest_init; cbn [body].
  rewrite stringify_object.
  split.
  - intros Hbody k v Hin.
    destruct (serialized_members options) as [ | [k' s'] ms] eqn:Hm.
    + destruct v; try reflexivity;
        (assert (Hk : In k (map fst (serialized_members options)))
           by (apply serialized_members_keys; eexists; split;
               [exact Hin | discriminate]);
         rewrite Hm in Hk; destruct Hk).
    + exfalso; revert Hbody.
      unfold object_text, wrap_members, member_text, QuoteJSONString, join.
      destruct ms; simpl; intro H; discriminate H.
  - intro Hall.
    assert (Hm : serialized_members options = []).
    { induction options as [ | [k x] r IH]; simpl; [reflexivity | ].
      rewrite (Hall k x (or_introl eq_refl)); simpl.
      apply IH; intros k' v' Hin; apply (Hall k' v'); now right. }
    rewrite Hm; reflexivity.
Qed.
